(** * rag-chatbot: the application launcher and the UI layout

    A shallow embedding of [private_gpt/launcher.py] (module [Launcher]) and
    of [Tin/test/test_ui.py] (module [Ui]), with the properties of the
    application assembler, the request context binder and the UI session
    state machine. *)

From stdpp Require Import base option list strings gmap.

Open Scope string_scope.
Open Scope list_scope.
Open Scope stdpp_scope.

(** ** Python objects that are compared by identity *)

Definition ObjId := positive.

(* ===================================================================== *)
(** * private_gpt/launcher.py *)
(* ===================================================================== *)

Module Launcher.

(** *** Settings read through [root_injector.get(Settings)] *)

Record CorsSettings := {
  cors_enabled : bool;
  allow_credentials : bool;
  allow_origins : list string;
  allow_origin_regex : option string;
  allow_methods : list string;
  allow_headers : list string
}.

Record UISettings := {
  ui_enabled : bool;
  ui_path : string
}.

Record Settings := {
  server_cors : CorsSettings;   (* settings.server.cors *)
  ui : UISettings               (* settings.ui *)
}.

(** The injector is one Python object; [inj_id] is its identity, the other
    fields are what [root_injector.get(cls)] answers for the two classes
    that [create_app] asks for. *)
Record Injector := {
  inj_id : ObjId;
  get_Settings : Settings;
  get_PrivateGptUi : ObjId
}.

(** *** Requests *)

(** [request.state] is an attribute bag; the attributes hold references. *)
Record Request := {
  url_path : string;
  state : gmap string ObjId
}.

Definition set_state (k : string) (v : ObjId) (request : Request) : Request :=
  {| url_path := url_path request; state := <[k := v]> (state request) |}.

(** *** The FastAPI application object *)

Inductive Router :=
  | chat_router
  | chunks_router
  | completions_router
  | embeddings_router
  | health_router
  | ingest_router
  | summarize_router.

#[export] Instance Router_eq_dec : EqDecision Router.
Proof. solve_decision. Defined.

(** Keyword arguments handed to [CORSMiddleware]. *)
Record CorsKwargs := {
  kw_allow_credentials : bool;
  kw_allow_origins : list string;
  kw_allow_origin_regex : option string;
  kw_allow_methods : list string;
  kw_allow_headers : list string
}.

Inductive Middleware :=
  | CORSMiddleware (kw : CorsKwargs).

Inductive Dependency :=
  | Depends (f : Request -> Request).

Record FastAPI := {
  dependencies : list Dependency;
  routers : list Router;
  user_middleware : list Middleware;
  mounts : list (string * ObjId)
}.

(** [FastAPI(dependencies=deps)] *)
Definition FastAPI_new (deps : list Dependency) : FastAPI :=
  {| dependencies := deps; routers := []; user_middleware := []; mounts := [] |}.

(** [app.include_router(r)]: the router's routes go after those already there. *)
Definition include_router (r : Router) (app : FastAPI) : FastAPI :=
  {| dependencies := dependencies app;
     routers := routers app ++ [r];
     user_middleware := user_middleware app;
     mounts := mounts app |}.

(** [app.add_middleware(cls, **kw)]: Starlette puts the newest one first. *)
Definition add_middleware (m : Middleware) (app : FastAPI) : FastAPI :=
  {| dependencies := dependencies app;
     routers := routers app;
     user_middleware := m :: user_middleware app;
     mounts := mounts app |}.

(** Modelled from the spec: [PrivateGptUi.mount_in_app] lives in
    [private_gpt/ui/ui.py], which is not among the sources.  The spec says
    the assembler "resolves and mounts the UI Layout Builder's output at
    [uiPath]": the UI object becomes a sub-application of [app] at [path]. *)
Definition mount_in_app (ui_obj : ObjId) (path : string) (app : FastAPI) : FastAPI :=
  {| dependencies := dependencies app;
     routers := routers app;
     user_middleware := user_middleware app;
     mounts := mounts app ++ [(path, ui_obj)] |}.

(** The application-level dependencies run, in order, on every request
    before the matched route's own. *)
Definition run_dependencies (app : FastAPI) (request : Request) : Request :=
  foldl (fun rq d => match d with Depends f => f rq end) request (dependencies app).

(** *** Process-wide state: logging and the llama-index settings *)

Definition NOTSET : nat := 0.
Definition DEBUG : nat := 10.
Definition INFO : nat := 20.

Record LogRecord := {
  rec_time : string;
  rec_level : string;
  rec_message : string;
  rec_name : string;
  rec_pathname : string;
  rec_lineno : nat
}.

(** A [logging.FileHandler] with the [JsonFormatter]: one record per line,
    the six fields of [log_record]. *)
Record FileHandler := {
  baseFilename : string;
  handler_level : nat
}.

Inductive CallbackManager :=
  | CallbackManager_new (handlers : list ObjId).

(** The process-wide state that the statements of this file read or write:
    the logging configuration, the log files, and the llama-index setting.
    What the imported UI module, the injector and handlers on other loggers
    do to the process is not part of it. *)
Record Globals := {
  root_level : nat;                          (* logging.getLogger().level *)
  root_handlers : list FileHandler;          (* logging.getLogger().handlers *)
  logger_levels : gmap string nat;           (* levels set on named loggers *)
  files : gmap string (list LogRecord);      (* what the handlers wrote *)
  callback_manager : option CallbackManager  (* LlamaIndexSettings.callback_manager *)
}.

(** [logging.FileHandler(name)] opens the file for appending, which creates
    it when it is not there. *)
Definition open_append (name : string) (fs : gmap string (list LogRecord))
  : gmap string (list LogRecord) :=
  <[name := default [] (fs !! name)]> fs.

Definition setup_logging (g : Globals) : Globals :=
  let handler := {| baseFilename := "lanch.json"; handler_level := DEBUG |} in
  {| root_level := DEBUG;
     root_handlers := root_handlers g ++ [handler];
     logger_levels := <["fastapi" := INFO]> (<["uvicorn" := INFO]> (logger_levels g));
     files := open_append "lanch.json" (files g);
     callback_manager := callback_manager g |}.

(** The module's logger, [logging.getLogger(__name__)], and its ancestors
    below the root. *)
Definition logger_name : string := "private_gpt.launcher".
Definition logger_chain : list string := ["private_gpt.launcher"; "private_gpt"].

(** [Logger.getEffectiveLevel]: the first level that is set, walking up. *)
Fixpoint effective_level (chain : list string) (g : Globals) : nat :=
  match chain with
  | [] => root_level g
  | n :: rest =>
      match logger_levels g !! n with
      | Some l => if decide (l = NOTSET) then effective_level rest g else l
      | None => effective_level rest g
      end
  end.

(** [Logger.callHandlers]: a handler takes the record when the record's
    level, DEBUG here, is at least its own; a [FileHandler] appends it. *)
Definition emit (r : LogRecord) (fs : gmap string (list LogRecord)) (h : FileHandler)
  : gmap string (list LogRecord) :=
  if decide (handler_level h <= DEBUG)
  then <[baseFilename h := default [] (fs !! baseFilename h) ++ [r]]> fs
  else fs.

(** What the runtime supplies. *)
Record Env := {
  now : string;                                   (* formatTime of a record *)
  pathname : string;                              (* the launcher's file *)
  create_global_handler : string -> option ObjId; (* llama_index *)
  import_ui : option string                       (* [Some e]: the import raised ImportError e *)
}.

Inductive Exn :=
  | ImportError (msg : string) (cause : string).

Inductive Res (A : Type) :=
  | Ok (a : A)
  | Raise (e : Exn).
Arguments Ok {A} a.
Arguments Raise {A} e.

(** Statements run on the globals and either give a value or raise; what
    was written before a raise stays written. *)
Definition M (A : Type) : Type := Globals -> Globals * Res A.

#[export] Instance M_ret : MRet M := fun A a g => (g, Ok a).
#[export] Instance M_bind : MBind M := fun A B f m g =>
  match m g with
  | (g', Ok a) => f a g'
  | (g', Raise e) => (g', Raise e)
  end.

Definition raise {A} (e : Exn) : M A := fun g => (g, Raise e).

(** The record that [logger.debug(msg)] at source line [lineno] makes; the
    [JsonFormatter] writes these six fields. *)
Definition debug_record (env : Env) (lineno : nat) (msg : string) : LogRecord :=
  {| rec_time := now env; rec_level := "DEBUG"; rec_message := msg;
     rec_name := logger_name; rec_pathname := pathname env;
     rec_lineno := lineno |}.

(** [logger.debug(msg)]: the launcher's logger and its ancestors below the
    root have no handlers of their own, the record goes to the root's. *)
Definition logger_debug (env : Env) (lineno : nat) (msg : string) : M unit := fun g =>
  if decide (effective_level logger_chain g <= DEBUG) then
    ({| root_level := root_level g;
        root_handlers := root_handlers g;
        logger_levels := logger_levels g;
        files := foldl (emit (debug_record env lineno msg)) (files g) (root_handlers g);
        callback_manager := callback_manager g |}, Ok tt)
  else (g, Ok tt).

(** [LlamaIndexSettings.callback_manager = cm] *)
Definition set_callback_manager (cm : CallbackManager) : M unit := fun g =>
  ({| root_level := root_level g;
      root_handlers := root_handlers g;
      logger_levels := logger_levels g;
      files := files g;
      callback_manager := Some cm |}, Ok tt).

(** *** [create_app] *)

Definition bind_injector_to_request (root_injector : Injector) (request : Request)
  : Request :=
  set_state "injector" (inj_id root_injector) request.

Definition ui_missing : string :=
  "UI dependencies not found, install with `poetry install --extras ui`".

Definition create_app (env : Env) (root_injector : Injector) : M FastAPI :=
  let app := FastAPI_new [Depends (bind_injector_to_request root_injector)] in
  let app := include_router completions_router app in
  let app := include_router chat_router app in
  let app := include_router chunks_router app in
  let app := include_router ingest_router app in
  let app := include_router summarize_router app in
  let app := include_router embeddings_router app in
  let app := include_router health_router app in
  let global_handler := create_global_handler env "simple" in
  _ ← match global_handler with
      | Some h => set_callback_manager (CallbackManager_new [h])
      | None => mret tt
      end;
  let settings := get_Settings root_injector in
  app ← (if cors_enabled (server_cors settings) then
           _ ← logger_debug env 72 "Setting up CORS middleware";
           mret (add_middleware
                   (CORSMiddleware
                      {| kw_allow_credentials := allow_credentials (server_cors settings);
                         kw_allow_origins := allow_origins (server_cors settings);
                         kw_allow_origin_regex := allow_origin_regex (server_cors settings);
                         kw_allow_methods := allow_methods (server_cors settings);
                         kw_allow_headers := allow_headers (server_cors settings) |})
                   app)
         else mret app);
  app ← (if ui_enabled (ui settings) then
           _ ← logger_debug env 83 "Importing the UI module";
           match import_ui env with
           | Some e => raise (ImportError ui_missing e)
           | None =>
               let ui_obj := get_PrivateGptUi root_injector in
               mret (mount_in_app ui_obj (ui_path (ui settings)) app)
           end
         else mret app);
  mret app.

(** ** What a run may do to the logging state *)

(** The logging configuration is the same, and every file holds what it
    held, followed by debug records of the launcher's logger; a file that no
    root handler writes to is as it was. *)
Definition only_logged (env : Env) (g g' : Globals) : Prop :=
  root_level g' = root_level g /\
  root_handlers g' = root_handlers g /\
  logger_levels g' = logger_levels g /\
  forall f : string,
    (exists extra : list LogRecord,
        default [] (files g' !! f) = default [] (files g !! f) ++ extra /\
        Forall (fun r => exists n msg, r = debug_record env n msg) extra) /\
    (f ∉ baseFilename <$> root_handlers g -> files g' !! f = files g !! f).

(** ** Sample runs *)

Definition blank_process : Globals :=
  {| root_level := 30; root_handlers := []; logger_levels := ∅;
     files := ∅; callback_manager := None |}.

(** The process right after the launcher module was imported. *)
Definition at_import : Globals := setup_logging blank_process.

Definition wildcard_cors : CorsSettings :=
  {| cors_enabled := true; allow_credentials := false;
     allow_origins := ["*"]; allow_origin_regex := None;
     allow_methods := ["GET"; "POST"]; allow_headers := ["*"] |}.

Definition no_cors : CorsSettings :=
  {| cors_enabled := false; allow_credentials := false;
     allow_origins := []; allow_origin_regex := None;
     allow_methods := ["GET"]; allow_headers := [] |}.

Definition sample_injector (cors : CorsSettings) (with_ui : bool) : Injector :=
  {| inj_id := 1%positive;
     get_Settings := {| server_cors := cors;
                        ui := {| ui_enabled := with_ui; ui_path := "/" |} |};
     get_PrivateGptUi := 2%positive |}.

Definition sample_env (ui_import : option string) : Env :=
  {| now := "2024-01-01 00:00:00,000";
     pathname := "private_gpt/launcher.py";
     create_global_handler := fun _ => Some 3%positive;
     import_ui := ui_import |}.

(** The application that [create_app] returns for the wildcard policy with
    the UI mounted. *)
Definition sample_app : FastAPI :=
  {| dependencies :=
       [Depends (bind_injector_to_request (sample_injector wildcard_cors true))];
     routers := [completions_router; chat_router; chunks_router; ingest_router;
                 summarize_router; embeddings_router; health_router];
     user_middleware :=
       [CORSMiddleware {| kw_allow_credentials := false; kw_allow_origins := ["*"];
                          kw_allow_origin_regex := None;
                          kw_allow_methods := ["GET"; "POST"];
                          kw_allow_headers := ["*"] |}];
     mounts := [("/", 2%positive)] |}.

(** The application for a disabled policy and no UI. *)
Definition plain_app : FastAPI :=
  {| dependencies :=
       [Depends (bind_injector_to_request (sample_injector no_cors false))];
     routers := [completions_router; chat_router; chunks_router; ingest_router;
                 summarize_router; embeddings_router; health_router];
     user_middleware := [];
     mounts := [] |}.

Definition request_a : Request := {| url_path := "/v1/chat/completions"; state := ∅ |}.
Definition request_b : Request := {| url_path := "/health"; state := ∅ |}.

(** ** Counting what a debug record meets *)

(** The handler writes a DEBUG record to the file [f]. *)
Definition writes_to (f : string) (h : FileHandler) : Prop :=
  baseFilename h = f /\ handler_level h <= DEBUG.

#[export] Instance writes_to_dec f h : Decision (writes_to f h).
Proof. unfold writes_to. apply _. Defined.

(** How many of the handlers write a DEBUG record to [f]. *)
Definition writers (f : string) (hs : list FileHandler) : nat :=
  length (filter (writes_to f) hs).

(** The records [create_app] logs, in program order: line 72 under
    [cors.enabled], line 83 under [ui.enabled]. *)
Definition logged_by_create_app (env : Env) (settings : Settings) : list LogRecord :=
  (if cors_enabled (server_cors settings)
   then [debug_record env 72 "Setting up CORS middleware"] else []) ++
  (if ui_enabled (ui settings)
   then [debug_record env 83 "Importing the UI module"] else []).

(** Each record [copies] times, in order. *)
Definition each_times (copies : nat) (rs : list LogRecord) : list LogRecord :=
  rs ≫= replicate copies.

(** [setup_logging()] run [n] times, as when the module body is executed
    again. *)
Definition setup_logging_times (n : nat) (g : Globals) : Globals :=
  Nat.iter n setup_logging g.

(** No level is set on the logger named [n]: it was never created, or its
    level is NOTSET. *)
Definition level_unset (g : Globals) (n : string) : Prop :=
  logger_levels g !! n = None \/ logger_levels g !! n = Some NOTSET.

(** A second injector, for an application of its own. *)
Definition other_injector : Injector :=
  {| inj_id := 5%positive;
     get_Settings := {| server_cors := no_cors;
                        ui := {| ui_enabled := false; ui_path := "/ui" |} |};
     get_PrivateGptUi := 6%positive |}.

Definition other_app : FastAPI :=
  {| dependencies := [Depends (bind_injector_to_request other_injector)];
     routers := [completions_router; chat_router; chunks_router; ingest_router;
                 summarize_router; embeddings_router; health_router];
     user_middleware := [];
     mounts := [] |}.

End Launcher.

(* ===================================================================== *)
(** * Tin/test/test_ui.py *)
(* ===================================================================== *)

Module Ui.

Inductive Modes :=
  | RAG_MODE
  | SEARCH_MODE
  | BASIC_CHAT_MODE
  | SUMMARIZE_MODE.

Definition Modes_value (m : Modes) : string :=
  match m with
  | RAG_MODE => "RAG"
  | SEARCH_MODE => "Search"
  | BASIC_CHAT_MODE => "Basic"
  | SUMMARIZE_MODE => "Summarize"
  end.

Definition MODES : list Modes :=
  [RAG_MODE; SEARCH_MODE; BASIC_CHAT_MODE; SUMMARIZE_MODE].

(** ** The components that [_build_ui_blocks] creates *)

Inductive Component :=
  | sidebar_left
  | mode
  | explanation_mode
  | upload_button
  | ingested_dataset
  | deselect_file_button
  | selected_text
  | delete_file_button
  | delete_files_button
  | system_prompt_input
  | sidebar_state
  | btn_toggle_sidebar.

#[export] Instance Component_eq_dec : EqDecision Component.
Proof. solve_decision. Defined.

Inductive Value :=
  | VNone
  | VBool (b : bool)
  | VStr (s : string)
  | VRows (rows : list (list string)).

(** Python's truth value, as [not state] takes it. *)
Definition truthy (v : Value) : bool :=
  match v with
  | VNone => false
  | VBool b => b
  | VStr s => negb (bool_decide (s = ""))
  | VRows rows => negb (bool_decide (rows = []))
  end.

(** The properties of a component that the event handlers of this file can
    change.  [interactive] is [None] where the constructor gives none and the
    class has no default of its own. *)
Record Props := {
  visible : bool;
  interactive : option bool;
  value : Value
}.

Definition Store := Component -> Props.

(** The constructor calls, with the toolkit's defaults where an argument is
    not given: [visible=True], and [interactive=True] for [gr.Button] and
    [gr.UploadButton]; the value is [VNone] where none is given, but a
    [gr.List] without a value holds one row with an empty cell.  A button's
    value is its caption.  The components that no listener of this file
    reads or writes (the logo, the Markdown title, the chat interface) are
    left out. *)
Definition created (c : Component) : Props :=
  match c with
  | sidebar_left =>          (* gr.Column(visible=False) *)
      {| visible := false; interactive := None; value := VNone |}
  | mode =>                  (* gr.Radio([...], interactive=True) *)
      {| visible := true; interactive := Some true; value := VNone |}
  | explanation_mode =>      (* gr.Textbox(interactive=False) *)
      {| visible := true; interactive := Some false; value := VNone |}
  | upload_button =>         (* gr.UploadButton(label="Upload File(s)") *)
      {| visible := true; interactive := Some true; value := VNone |}
  | ingested_dataset =>      (* gr.List(headers=["File Name"], interactive=False) *)
      {| visible := true; interactive := Some false; value := VRows [[""]] |}
  | deselect_file_button =>  (* gr.Button("De-select selected file", interactive=False) *)
      {| visible := true; interactive := Some false;
         value := VStr "De-select selected file" |}
  | selected_text =>         (* gr.Textbox("All files", interactive=False) *)
      {| visible := true; interactive := Some false; value := VStr "All files" |}
  | delete_file_button =>    (* gr.Button("🗑️ Delete selected file", interactive=False) *)
      {| visible := true; interactive := Some false;
         value := VStr "🗑️ Delete selected file" |}
  | delete_files_button =>   (* gr.Button("⚠️ Delete ALL files") *)
      {| visible := true; interactive := Some true;
         value := VStr "⚠️ Delete ALL files" |}
  | system_prompt_input =>   (* gr.Textbox(label="System Prompt", interactive=True) *)
      {| visible := true; interactive := Some true; value := VNone |}
  | sidebar_state =>         (* gr.State(False) *)
      {| visible := true; interactive := None; value := VBool false |}
  | btn_toggle_sidebar =>    (* gr.Button("Sidebar") *)
      {| visible := true; interactive := Some true; value := VStr "Sidebar" |}
  end.

(** A control takes user events unless it is switched off. *)
Definition is_enabled (p : Props) : bool :=
  match interactive p with
  | Some false => false
  | _ => true
  end.

(** ** What a handler returns for one output component *)

(** [gr.update(...)]: the properties that are named change. *)
Record Update := {
  u_visible : option bool;
  u_interactive : option bool;
  u_value : option Value
}.

Inductive Output :=
  | Upd (u : Update)     (* a gr.update(...) *)
  | Val (v : Value).     (* a plain value: the component's new value *)

Definition update_visible (b : bool) : Update :=
  {| u_visible := Some b; u_interactive := None; u_value := None |}.
Definition update_interactive (b : bool) : Update :=
  {| u_visible := None; u_interactive := Some b; u_value := None |}.
Definition update_nothing : Update :=
  {| u_visible := None; u_interactive := None; u_value := None |}.

Definition apply_output (p : Props) (o : Output) : Props :=
  match o with
  | Upd u =>
      {| visible := default (visible p) (u_visible u);
         interactive := match u_interactive u with
                        | Some b => Some b
                        | None => interactive p
                        end;
         value := default (value p) (u_value u) |}
  | Val v =>
      {| visible := visible p; interactive := interactive p; value := v |}
  end.

Definition set_props (c : Component) (p : Props) (st : Store) : Store :=
  fun c' => if decide (c = c') then p else st c'.

(** The returned values go to the output components position by position;
    nothing is written past the shorter of the two lists. *)
Fixpoint write_outputs (outs : list Component) (rets : list Output) (st : Store)
  : Store :=
  match outs, rets with
  | c :: outs', r :: rets' =>
      write_outputs outs' rets' (set_props c (apply_output (st c) r) st)
  | _, _ => st
  end.

(** ** The event bindings *)

Inductive EventKind := click | upload | change | select | blur.

Definition toggle_sidebar (args : list Value) : list Output :=
  match args with
  | [state] =>
      let state := negb (truthy state) in
      [Upd (update_visible state); Val (VBool state)]
  | _ => []
  end.

(** [fn] is [None] where the source passes no function to the listener. *)
Record Binding := {
  trigger : Component;
  event : EventKind;
  fn : option (list Value -> list Output);
  inputs : list Component;
  outputs : list Component
}.

Definition upload_button_upload : Binding :=
  {| trigger := upload_button; event := upload; fn := None;
     inputs := [upload_button]; outputs := [ingested_dataset] |}.

Definition ingested_dataset_change : Binding :=
  {| trigger := ingested_dataset; event := change; fn := None;
     inputs := []; outputs := [ingested_dataset] |}.

Definition deselect_file_button_click : Binding :=
  {| trigger := deselect_file_button; event := click; fn := None;
     inputs := [];
     outputs := [delete_file_button; deselect_file_button; selected_text] |}.

Definition ingested_dataset_select : Binding :=
  {| trigger := ingested_dataset; event := select; fn := None;
     inputs := [];
     outputs := [delete_file_button; deselect_file_button; selected_text] |}.

Definition delete_file_button_click : Binding :=
  {| trigger := delete_file_button; event := click; fn := None;
     inputs := [];
     outputs := [ingested_dataset; delete_file_button; deselect_file_button;
                 selected_text] |}.

Definition delete_files_button_click : Binding :=
  {| trigger := delete_files_button; event := click; fn := None;
     inputs := [];
     outputs := [ingested_dataset; delete_file_button; deselect_file_button;
                 selected_text] |}.

Definition mode_change : Binding :=
  {| trigger := mode; event := change; fn := None;
     inputs := [mode]; outputs := [system_prompt_input; explanation_mode] |}.

Definition system_prompt_input_blur : Binding :=
  {| trigger := system_prompt_input; event := blur; fn := None;
     inputs := [system_prompt_input]; outputs := [] |}.

Definition btn_toggle_sidebar_click : Binding :=
  {| trigger := btn_toggle_sidebar; event := click; fn := Some toggle_sidebar;
     inputs := [sidebar_state]; outputs := [sidebar_left; sidebar_state] |}.

(** All listener calls of [_build_ui_blocks], in source order.  Only the
    last one passes a function; the others name the trigger, the inputs and
    the outputs that a handler, once one is given, reads and writes. *)
Definition bindings : list Binding :=
  [upload_button_upload; ingested_dataset_change; deselect_file_button_click;
   ingested_dataset_select; delete_file_button_click; delete_files_button_click;
   mode_change; system_prompt_input_blur; btn_toggle_sidebar_click].

(** ** Firing a listener *)

(** Modelled from the spec: an [IngestedFile] has the attributes
    display_name and internal_reference (§3); the class itself is part of
    [private_gpt/ui/ui.py] and its collaborators, which are not among the
    sources. *)
Record IngestedFile := {
  display_name : string;
  internal_reference : string
}.

#[export] Instance IngestedFile_eq_dec : EqDecision IngestedFile.
Proof. solve_decision. Defined.

(** Modelled from the spec: a [Selection] is "all files" or exactly one
    IngestedFile reference (§3); the attribute that holds it is in the
    missing [private_gpt/ui/ui.py]. *)
Inductive Selection :=
  | all_files
  | one_file (ref : IngestedFile).

#[export] Instance Selection_eq_dec : EqDecision Selection.
Proof. solve_decision. Defined.

(** Modelled from the spec: the part of the session state of §4.2 that the
    controller object of the missing [private_gpt/ui/ui.py] holds: the mode,
    the active system prompt, the files and the selection.  The fourth
    component, sidebarVisible, is the [gr.State] of the source. *)
Record Controller := {
  current_mode : option Modes;
  system_prompt : string;
  files : list IngestedFile;
  selection : Selection
}.

Record Session := {
  widgets : Store;
  ctl : Controller
}.

(** A handler sees the controller and the values of the input components;
    it gives the new controller and one return value per output. *)
Definition Handler : Type := Controller -> list Value -> Controller * list Output.

(** A listener runs its own function when the source gives it one (such a
    function has no access to the controller); otherwise the handler [h]. *)
Definition dispatch (b : Binding) (h : Handler) (s : Session) : Session :=
  let args := map (fun c => value (widgets s c)) (inputs b) in
  match fn b with
  | Some f =>
      {| widgets := write_outputs (outputs b) (f args) (widgets s);
         ctl := ctl s |}
  | None =>
      let r := h (ctl s) args in
      {| widgets := write_outputs (outputs b) r.2 (widgets s);
         ctl := r.1 |}
  end.

(** A button that is switched off takes no click and no upload. *)
Definition takes_event (b : Binding) (st : Store) : bool :=
  match event b with
  | click | upload => is_enabled (st (trigger b))
  | change | select | blur => true
  end.

(** ** The transitions of the session controller *)

(** Modelled from the spec: the transitions of §4.2, the handlers that the
    listeners above would name; they are methods of the controller in the
    missing [private_gpt/ui/ui.py].  An action carries what the user gives
    and what the external collaborator of §6 answers: for an upload each
    path with the reference the collaborator assigned to it, for a deletion
    whether the call succeeded, for a mode change the defaults of the mode. *)
Inductive Action :=
  | UploadFiles (uploads : list (string * string))
  | FilesListChanged
  | SelectFile (ref : IngestedFile)
  | DeselectFile
  | DeleteSelected (succeeded : bool)
  | DeleteAll (succeeded : bool)
  | ChangeMode (newMode : Modes) (default_prompt explanation : string)
  | EditSystemPrompt (text : string)
  | ToggleSidebar.

Definition binding_of (a : Action) : Binding :=
  match a with
  | UploadFiles _ => upload_button_upload
  | FilesListChanged => ingested_dataset_change
  | SelectFile _ => ingested_dataset_select
  | DeselectFile => deselect_file_button_click
  | DeleteSelected _ => delete_file_button_click
  | DeleteAll _ => delete_files_button_click
  | ChangeMode _ _ _ => mode_change
  | EditSystemPrompt _ => system_prompt_input_blur
  | ToggleSidebar => btn_toggle_sidebar_click
  end.

(** Modelled from the spec: the IngestedFile made for an uploaded path; the
    scenario of §8 shows the path as the display name. *)
Definition ingested (u : string * string) : IngestedFile :=
  {| display_name := u.1; internal_reference := u.2 |}.

(** Modelled from the spec: the rows of the "Ingested Files" list, one per
    file, in the order of [files]. *)
Definition render_files (fs : list IngestedFile) : Value :=
  VRows (map (fun f => [display_name f]) fs).

(** The text that [selected_text] is created with. *)
Definition all_files_text : Value := value (created selected_text).

(** Modelled from the spec: what DeselectFile, DeleteSelected and DeleteAll
    return for [delete_file_button], [deselect_file_button] and
    [selected_text]: both controls disabled, the display text reset. *)
Definition selection_cleared : list Output :=
  [Upd (update_interactive false); Upd (update_interactive false);
   Val all_files_text].

(** Modelled from the spec: a failure result is "no state change": every
    output keeps what it has. *)
Definition unchanged (outs : list Component) : list Output :=
  map (fun _ => Upd update_nothing) outs.

(** Modelled from the spec: the transition function of §4.2.  DeleteSelected
    has the precondition that one file is selected; without a selection it
    changes nothing. *)
Definition transition (a : Action) (c : Controller) : Controller * list Output :=
  match a with
  | UploadFiles uploads =>
      let fs := files c ++ map ingested uploads in
      ({| current_mode := current_mode c; system_prompt := system_prompt c;
          files := fs; selection := selection c |},
       [Val (render_files fs)])
  | FilesListChanged =>
      (c, [Val (render_files (files c))])
  | SelectFile ref =>
      ({| current_mode := current_mode c; system_prompt := system_prompt c;
          files := files c; selection := one_file ref |},
       [Upd (update_interactive true); Upd (update_interactive true);
        Val (VStr (display_name ref))])
  | DeselectFile =>
      ({| current_mode := current_mode c; system_prompt := system_prompt c;
          files := files c; selection := all_files |},
       selection_cleared)
  | DeleteSelected succeeded =>
      match selection c with
      | one_file ref =>
          if succeeded then
            let fs := filter (fun f => f <> ref) (files c) in
            ({| current_mode := current_mode c; system_prompt := system_prompt c;
                files := fs; selection := all_files |},
             Val (render_files fs) :: selection_cleared)
          else (c, unchanged (outputs delete_file_button_click))
      | all_files => (c, unchanged (outputs delete_file_button_click))
      end
  | DeleteAll succeeded =>
      if succeeded then
        ({| current_mode := current_mode c; system_prompt := system_prompt c;
            files := []; selection := all_files |},
         Val (render_files []) :: selection_cleared)
      else (c, unchanged (outputs delete_files_button_click))
  | ChangeMode newMode default_prompt explanation =>
      ({| current_mode := Some newMode; system_prompt := default_prompt;
          files := files c; selection := selection c |},
       [Val (VStr default_prompt); Val (VStr explanation)])
  | EditSystemPrompt text =>
      ({| current_mode := current_mode c; system_prompt := text;
          files := files c; selection := selection c |},
       [])
  | ToggleSidebar => (c, unchanged (outputs btn_toggle_sidebar_click))
  end.

(** The transition itself: the listener of the action fires. *)
Definition fire (a : Action) (s : Session) : Session :=
  dispatch (binding_of a) (fun c _ => transition a c) s.

(** Modelled from the spec: an action can happen when its control takes the
    event; SelectFile is "fired when the user selects an entry in the file
    list", so its file is one of [files]. *)
Definition possible (a : Action) (s : Session) : bool :=
  takes_event (binding_of a) (widgets s) &&
  match a with
  | SelectFile ref => bool_decide (ref ∈ files (ctl s))
  | _ => true
  end.

Definition step (a : Action) (s : Session) : Session :=
  if possible a s then fire a s else s.

(** The sessions after each action of a sequence. *)
Fixpoint trace (s : Session) (acts : list Action) : list Session :=
  match acts with
  | [] => []
  | a :: rest => step a s :: trace (step a s) rest
  end.

Definition run (s : Session) (acts : list Action) : Session :=
  foldl (fun s a => step a s) s acts.

(** Modelled from the spec: the initial state [(unset, empty, "all", false)];
    the widgets are as the source creates them. *)
Definition initial : Session :=
  {| widgets := created;
     ctl := {| current_mode := None; system_prompt := "";
               files := []; selection := all_files |} |}.

(** The stored sidebar flag is the value of [sidebar_state]. *)
Definition sidebarVisible (s : Session) : bool :=
  truthy (value (widgets s sidebar_state)).

(** The three transitions that add or remove files. *)
Definition file_transition (a : Action) : bool :=
  match a with
  | UploadFiles _ | DeleteSelected _ | DeleteAll _ => true
  | _ => false
  end.

(** The selection is the sentinel or one of the files. *)
Definition selection_live (s : Session) : Prop :=
  match selection (ctl s) with
  | all_files => True
  | one_file ref => ref ∈ files (ctl s)
  end.

(** The delete-one and the deselect control are enabled exactly when one
    file is selected. *)
Definition controls_follow_selection (s : Session) : Prop :=
  (is_enabled (widgets s delete_file_button) = true <-> selection (ctl s) <> all_files) /\
  (is_enabled (widgets s deselect_file_button) = true <-> selection (ctl s) <> all_files).

Definition invariant (s : Session) : Prop :=
  selection_live s /\ controls_follow_selection s.

(** ** Sample data *)

Definition a_pdf : IngestedFile :=
  {| display_name := "a.pdf"; internal_reference := "doc-1" |}.
Definition b_pdf : IngestedFile :=
  {| display_name := "b.pdf"; internal_reference := "doc-2" |}.

Definition two_uploaded : Session :=
  run initial [UploadFiles [("a.pdf", "doc-1"); ("b.pdf", "doc-2")]].

Definition b_selected : Session := run two_uploaded [SelectFile b_pdf].

(** ** The layout: what is inside the left column *)

(** The components created inside [with gr.Column(visible=False) as
    sidebar_left]; [ingested_dataset] is created with [render=False] and
    rendered there.  The state and the "Sidebar" button are created in the
    right column. *)
Definition in_sidebar (c : Component) : bool :=
  match c with
  | mode | explanation_mode | upload_button | ingested_dataset
  | deselect_file_button | selected_text | delete_file_button
  | delete_files_button | system_prompt_input => true
  | sidebar_left | sidebar_state | btn_toggle_sidebar => false
  end.

(** A component shows when it is visible and the column around it is; the
    rows and the right column are created visible and are outputs of no
    listener. *)
Definition displayed (st : Store) (c : Component) : bool :=
  visible (st c) && (if in_sidebar c then visible (st sidebar_left) else true).

(** ** Listeners firing one after the other, with any handlers *)

Definition fire_all (h : Binding -> Handler) (s : Session) (bs : list Binding)
  : Session :=
  foldl (fun s b => dispatch b (h b) s) s bs.

(** How many of the events are clicks on the "Sidebar" button. *)
Definition toggle_clicks (bs : list Binding) : nat :=
  length (filter (fun b => trigger b = btn_toggle_sidebar) bs).

(** A handler that returns nothing, for every listener. *)
Definition no_handler : Binding -> Handler := fun _ c _ => (c, []).

(** ** The choices of the mode radio *)

(** [[m.value for m in MODES]] *)
Definition mode_choices : list string := map Modes_value MODES.
End Ui.

(* ===================================================================== *)
(** * Properties of the launcher *)
(* ===================================================================== *)

Module LauncherFacts.
Import Launcher.

(** ** Logging only appends *)

Lemma only_logged_refl env g : only_logged env g g.
Proof.
  repeat split; trivial.
  exists []. by rewrite app_nil_r.
Qed.

Lemma only_logged_trans env g1 g2 g3 :
  only_logged env g1 g2 -> only_logged env g2 g3 -> only_logged env g1 g3.
Proof.
  intros (Hl1 & Hh1 & Hn1 & Hf1) (Hl2 & Hh2 & Hn2 & Hf2).
  repeat split; try congruence.
  - destruct (Hf1 f) as [(e1 & He1 & Hr1) _], (Hf2 f) as [(e2 & He2 & Hr2) _].
    exists (e1 ++ e2). rewrite He2, He1, <- app_assoc. split; [done|].
    by apply Forall_app.
  - intros Hf. destruct (Hf1 f) as [_ H1], (Hf2 f) as [_ H2].
    rewrite H2; [by apply H1 | by rewrite Hh1].
Qed.

Lemma emit_lookup (r : LogRecord) (h : FileHandler)
    (fs : gmap string (list LogRecord)) (f : string) :
  (exists extra, default [] (emit r fs h !! f) = default [] (fs !! f) ++ extra /\
                 Forall (fun r' => r' = r) extra) /\
  (f <> baseFilename h -> emit r fs h !! f = fs !! f).
Proof.
  unfold emit. case_decide.
  - split.
    + destruct (decide (baseFilename h = f)) as [->|Hne].
      * rewrite lookup_insert_eq. simpl. exists [r]. split; [done|].
        by repeat constructor.
      * rewrite lookup_insert_ne by done. exists []. by rewrite app_nil_r.
    + intros Hne. by rewrite lookup_insert_ne.
  - split; [|done]. exists []. by rewrite app_nil_r.
Qed.

Lemma emit_all_lookup (r : LogRecord) (hs : list FileHandler)
    (fs : gmap string (list LogRecord)) (f : string) :
  (exists extra, default [] (foldl (emit r) fs hs !! f) = default [] (fs !! f) ++ extra /\
                 Forall (fun r' => r' = r) extra) /\
  (f ∉ baseFilename <$> hs -> foldl (emit r) fs hs !! f = fs !! f).
Proof.
  revert fs. induction hs as [|h hs IH]; intros fs; simpl.
  - split; [|done]. exists []. by rewrite app_nil_r.
  - destruct (IH (emit r fs h)) as [(e2 & He2 & Hr2) Hout].
    destruct (emit_lookup r h fs f) as [(e1 & He1 & Hr1) Hone].
    split.
    + exists (e1 ++ e2). rewrite He2, He1, <- app_assoc. split; [done|].
      by apply Forall_app.
    + intros Hf. apply not_elem_of_cons in Hf as [Hne Hf].
      rewrite Hout by done. by apply Hone.
Qed.

Lemma logger_debug_spec env n msg g :
  (logger_debug env n msg g).2 = Ok tt /\
  only_logged env g (logger_debug env n msg g).1 /\
  callback_manager (logger_debug env n msg g).1 = callback_manager g.
Proof.
  unfold logger_debug. case_decide; simpl.
  - split; [done|]. split; [|done]. repeat split; simpl; trivial.
    + destruct (emit_all_lookup (debug_record env n msg) (root_handlers g) (files g) f)
        as [(extra & He & Hr) _].
      exists extra. split; [done|].
      eapply Forall_impl; [exact Hr|]. intros r ->. by eauto.
    + apply emit_all_lookup.
  - split; [done|]. split; [apply only_logged_refl | done].
Qed.

(** ** Running [create_app] *)

(** Case analysis on everything [create_app] branches on; each call of
    [logger_debug] is replaced by its final state [g'], of which
    [logger_debug_spec] is kept. *)
Ltac run_create_app :=
  unfold create_app, mbind, M_bind, mret, M_ret, raise, set_callback_manager;
  repeat match goal with
    | |- context [create_global_handler ?e ?s] =>
        let H := fresh "Hgh" in destruct (create_global_handler e s) eqn:H; simpl
    | |- context [if cors_enabled ?c then _ else _] =>
        let H := fresh "Hcors" in destruct (cors_enabled c) eqn:H; simpl
    | |- context [if ui_enabled ?c then _ else _] =>
        let H := fresh "Hui" in destruct (ui_enabled c) eqn:H; simpl
    | |- context [match import_ui ?e with _ => _ end] =>
        let H := fresh "Himp" in destruct (import_ui e) eqn:H; simpl
    | |- context [logger_debug ?e ?n ?m ?g] =>
        let H := fresh "Hlog" in
        pose proof (logger_debug_spec e n m g) as H;
        destruct (logger_debug e n m g) as [? [[]|?]];
        simpl in H; destruct H as (? & ? & ?); [|discriminate];
        simpl
    end.

Example sample_run :
  (create_app (sample_env None) (sample_injector wildcard_cors true) at_import).2
  = Ok sample_app.
Proof. reflexivity. Qed.

Example sample_run_log :
  files (create_app (sample_env None) (sample_injector wildcard_cors true) at_import).1
    !! "lanch.json"
  = Some [debug_record (sample_env None) 72 "Setting up CORS middleware";
          debug_record (sample_env None) 83 "Importing the UI module"].
Proof. vm_compute. reflexivity. Qed.

(** ** The request context binder *)

Lemma bind_injector_to_request_state inj request :
  state (bind_injector_to_request inj request) !! "injector" = Some (inj_id inj) /\
  forall k, k <> "injector" ->
    state (bind_injector_to_request inj request) !! k = state request !! k.
Proof.
  unfold bind_injector_to_request, set_state; simpl. split.
  - apply lookup_insert_eq.
  - intros k Hk. by rewrite lookup_insert_ne.
Qed.

Lemma create_app_dependencies env inj g app :
  (create_app env inj g).2 = Ok app ->
  dependencies app = [Depends (bind_injector_to_request inj)].
Proof. revert app. run_create_app; intros app [= <-]; reflexivity. Qed.

(** C1, as the code has it: the application that [create_app] returns for
    [root_injector] binds, on every request, the attribute [injector] of the
    request's state to [root_injector] itself, the one object that was
    passed to [create_app]; so any two requests to the application are bound
    to the same injector object, not to a fresh one each.  The binder writes
    nothing but that attribute of the request it is run on. *)
Theorem binder_shares_root_injector env root_injector g app :
  (create_app env root_injector g).2 = Ok app ->
  forall r1 r2 : Request,
    state (run_dependencies app r1) !! "injector" = Some (inj_id root_injector) /\
    state (run_dependencies app r2) !! "injector" = Some (inj_id root_injector) /\
    url_path (run_dependencies app r1) = url_path r1 /\
    forall k, k <> "injector" ->
      state (run_dependencies app r1) !! k = state r1 !! k.
Proof.
  intros Happ r1 r2. unfold run_dependencies.
  rewrite (create_app_dependencies _ _ _ _ Happ). simpl.
  destruct (bind_injector_to_request_state root_injector r1) as [H1 Hk].
  destruct (bind_injector_to_request_state root_injector r2) as [H2 _].
  auto.
Qed.

Lemma binder_shares_root_injector_witness :
  (create_app (sample_env None) (sample_injector wildcard_cors true) at_import).2
    = Ok sample_app /\
  state (run_dependencies sample_app request_a) !! "injector" = Some 1%positive /\
  state (run_dependencies sample_app request_b) !! "injector" = Some 1%positive.
Proof.
  split; [reflexivity|].
  pose proof (binder_shares_root_injector (sample_env None)
                (sample_injector wildcard_cors true) at_import sample_app eq_refl
                request_a request_b) as (Ha & Hb & _).
  exact (conj Ha Hb).
Defined.

(** C1 fails as stated: two distinct requests to one application get the
    very same context object, the root injector (object 1 here). *)
Lemma two_requests_one_injector :
  request_a <> request_b /\
  (create_app (sample_env None) (sample_injector no_cors false) at_import).2
    = Ok plain_app /\
  state (run_dependencies plain_app request_a) !! "injector" = Some 1%positive /\
  state (run_dependencies plain_app request_b) !! "injector" = Some 1%positive.
Proof.
  split; [discriminate|]. split; [reflexivity|]. split; reflexivity.
Qed.

(** ** The effects of assembly *)

Lemma create_app_globals env inj g :
  only_logged env g (create_app env inj g).1 /\
  callback_manager (create_app env inj g).1 =
    match create_global_handler env "simple" with
    | Some h => Some (CallbackManager_new [h])
    | None => callback_manager g
    end.
Proof.
  run_create_app;
    repeat match goal with
      | H : callback_manager _ = _ |- _ => simpl in H; rewrite H; clear H
      end;
    (split; [| reflexivity]);
    repeat match goal with
      | H : only_logged _ ?a ?b |- only_logged _ ?a' ?c =>
          first [ exact H | apply (only_logged_trans _ _ _ _ H); clear H ]
      end;
    try match goal with |- only_logged ?e ?a _ => exact (only_logged_refl e a) end.
Qed.

Lemma create_app_shape env inj g app :
  (create_app env inj g).2 = Ok app ->
  let settings := get_Settings inj in
  dependencies app = [Depends (bind_injector_to_request inj)] /\
  routers app = [completions_router; chat_router; chunks_router; ingest_router;
                 summarize_router; embeddings_router; health_router] /\
  user_middleware app =
    (if cors_enabled (server_cors settings)
     then [CORSMiddleware
             {| kw_allow_credentials := allow_credentials (server_cors settings);
                kw_allow_origins := allow_origins (server_cors settings);
                kw_allow_origin_regex := allow_origin_regex (server_cors settings);
                kw_allow_methods := allow_methods (server_cors settings);
                kw_allow_headers := allow_headers (server_cors settings) |}]
     else []) /\
  mounts app =
    (if ui_enabled (ui settings)
     then [(ui_path (ui settings), get_PrivateGptUi inj)]
     else []).
Proof.
  revert app. simpl. run_create_app; intros app [= <-]; repeat split.
Qed.


(** ** The UI mount *)

(** C3: with [ui.enabled] set and the UI module not importable, [create_app]
    raises the ImportError that names the missing dependencies and how to
    install them, and returns no application; with [ui.enabled] set and the
    module importable, the application is returned with the UI mounted at
    [ui.path], and only there; with [ui.enabled] unset, the application is
    returned with nothing mounted. *)
Theorem ui_mounted_or_startup_fails env root_injector g :
  let settings := get_Settings root_injector in
  (ui_enabled (ui settings) = true ->
   forall e, import_ui env = Some e ->
     (create_app env root_injector g).2 = Raise (ImportError ui_missing e)) /\
  (ui_enabled (ui settings) = true ->
   import_ui env = None ->
     exists app, (create_app env root_injector g).2 = Ok app /\
       mounts app = [(ui_path (ui settings), get_PrivateGptUi root_injector)]) /\
  (ui_enabled (ui settings) = false ->
     exists app, (create_app env root_injector g).2 = Ok app /\ mounts app = []).
Proof.
  simpl. repeat split.
  - intros Hen e Himp. run_create_app; congruence.
  - intros Hen Himp.
    destruct (create_app env root_injector g).2 as [app|e] eqn:Happ.
    + exists app. split; [done|].
      destruct (create_app_shape _ _ _ _ Happ) as (_ & _ & _ & ->). by rewrite Hen.
    + revert Happ. run_create_app; congruence.
  - intros Hen.
    destruct (create_app env root_injector g).2 as [app|e] eqn:Happ.
    + exists app. split; [done|].
      destruct (create_app_shape _ _ _ _ Happ) as (_ & _ & _ & ->). by rewrite Hen.
    + revert Happ. run_create_app; congruence.
Qed.

Lemma ui_mounted_or_startup_fails_witness :
  (create_app (sample_env (Some "No module named 'gradio'"))
     (sample_injector wildcard_cors true) at_import).2
    = Raise (ImportError ui_missing "No module named 'gradio'") /\
  (exists app,
      (create_app (sample_env None) (sample_injector wildcard_cors true) at_import).2
        = Ok app /\ mounts app = [("/", 2%positive)]) /\
  (exists app,
      (create_app (sample_env None) (sample_injector wildcard_cors false) at_import).2
        = Ok app /\ mounts app = []).
Proof.
  split; [|split].
  - apply (ui_mounted_or_startup_fails (sample_env (Some "No module named 'gradio'"))
             (sample_injector wildcard_cors true) at_import); reflexivity.
  - apply (ui_mounted_or_startup_fails (sample_env None)
             (sample_injector wildcard_cors true) at_import); reflexivity.
  - apply (ui_mounted_or_startup_fails (sample_env None)
             (sample_injector wildcard_cors false) at_import); reflexivity.
Defined.

(** ** The CORS middleware *)

(** C4: the application that [create_app] returns has a CORS middleware if
    and only if [cors.enabled] is set; when it is set there is exactly that
    one middleware and its five arguments are the five fields of the policy,
    unchanged; when it is not set the application has no middleware. *)
Theorem cors_middleware_iff_enabled env root_injector g app :
  (create_app env root_injector g).2 = Ok app ->
  let cors := server_cors (get_Settings root_injector) in
  ((exists kw, CORSMiddleware kw ∈ user_middleware app) <-> cors_enabled cors = true) /\
  (cors_enabled cors = true ->
   user_middleware app =
     [CORSMiddleware {| kw_allow_credentials := allow_credentials cors;
                        kw_allow_origins := allow_origins cors;
                        kw_allow_origin_regex := allow_origin_regex cors;
                        kw_allow_methods := allow_methods cors;
                        kw_allow_headers := allow_headers cors |}]) /\
  (cors_enabled cors = false -> user_middleware app = []).
Proof.
  intros Happ. simpl.
  destruct (create_app_shape _ _ _ _ Happ) as (_ & _ & Hmw & _).
  rewrite Hmw. destruct (cors_enabled _); repeat split; try done.
  - intros _. eexists. by apply list_elem_of_singleton.
  - intros [kw Hkw]. by apply not_elem_of_nil in Hkw.
Qed.

Lemma cors_middleware_iff_enabled_witness :
  (create_app (sample_env None) (sample_injector wildcard_cors true) at_import).2
    = Ok sample_app /\
  user_middleware sample_app =
    [CORSMiddleware {| kw_allow_credentials := false; kw_allow_origins := ["*"];
                       kw_allow_origin_regex := None;
                       kw_allow_methods := ["GET"; "POST"];
                       kw_allow_headers := ["*"] |}] /\
  (create_app (sample_env None) (sample_injector no_cors false) at_import).2
    = Ok plain_app /\
  user_middleware plain_app = [].
Proof.
  split; [reflexivity|]. split; [|split; [reflexivity|]].
  - apply (cors_middleware_iff_enabled (sample_env None)
             (sample_injector wildcard_cors true) at_import sample_app eq_refl).
    reflexivity.
  - apply (cors_middleware_iff_enabled (sample_env None)
             (sample_injector no_cors false) at_import plain_app eq_refl).
    reflexivity.
Defined.

(** ** The routers *)

(** C5: whatever the settings, the environment and the process state are,
    the application that [create_app] returns has the seven routers mounted
    in the order completions, chat, chunks, ingest, summarize, embeddings,
    health. *)
Theorem routers_mounted_in_fixed_order env root_injector g app :
  (create_app env root_injector g).2 = Ok app ->
  routers app = [completions_router; chat_router; chunks_router; ingest_router;
                 summarize_router; embeddings_router; health_router].
Proof. intros Happ. apply (create_app_shape _ _ _ _ Happ). Qed.

Lemma routers_mounted_in_fixed_order_witness :
  (create_app (sample_env None) (sample_injector no_cors false) at_import).2
    = Ok plain_app /\
  routers plain_app = [completions_router; chat_router; chunks_router; ingest_router;
                       summarize_router; embeddings_router; health_router].
Proof.
  split; [reflexivity|].
  exact (routers_mounted_in_fixed_order (sample_env None)
           (sample_injector no_cors false) at_import plain_app eq_refl).
Defined.

(** ** The exact log *)

Lemma effective_level_ext chain g g' :
  root_level g' = root_level g -> logger_levels g' = logger_levels g ->
  effective_level chain g' = effective_level chain g.
Proof.
  intros Hr Hl. induction chain as [|n chain IH]; simpl; [done|].
  by rewrite Hl, IH.
Qed.

Lemma effective_level_cons n rest g :
  effective_level (n :: rest) g =
    match logger_levels g !! n with
    | Some l => if decide (l = NOTSET) then effective_level rest g else l
    | None => effective_level rest g
    end.
Proof. reflexivity. Qed.

#[local] Arguments effective_level : simpl never.

Lemma emit_exact r h fs f :
  default [] (emit r fs h !! f) =
    default [] (fs !! f) ++ (if decide (writes_to f h) then [r] else []).
Proof.
  destruct (decide (writes_to f h)) as [[Hf Hl]|Hn]; unfold emit.
  - rewrite decide_True by done. subst f. by rewrite lookup_insert_eq.
  - rewrite app_nil_r. case_decide; [|done].
    rewrite lookup_insert_ne; [done|]. intros Hf. apply Hn. by split.
Qed.

Lemma emit_all_exact r hs fs f :
  default [] (foldl (emit r) fs hs !! f) =
    default [] (fs !! f) ++ replicate (writers f hs) r.
Proof.
  revert fs. induction hs as [|h hs IH]; intros fs; simpl.
  - by rewrite app_nil_r.
  - rewrite IH, emit_exact, <- app_assoc. f_equal.
    unfold writers. rewrite filter_cons. by case_decide.
Qed.

Lemma logger_debug_exact env n msg g :
  (logger_debug env n msg g).2 = Ok tt /\
  root_level (logger_debug env n msg g).1 = root_level g /\
  root_handlers (logger_debug env n msg g).1 = root_handlers g /\
  logger_levels (logger_debug env n msg g).1 = logger_levels g /\
  callback_manager (logger_debug env n msg g).1 = callback_manager g /\
  forall f,
    default [] (files (logger_debug env n msg g).1 !! f) =
      default [] (files g !! f) ++
      (if decide (effective_level logger_chain g <= DEBUG)
       then replicate (writers f (root_handlers g)) (debug_record env n msg)
       else []).
Proof.
  unfold logger_debug. case_decide; simpl; repeat split; trivial; intros f.
  - apply emit_all_exact.
  - by rewrite app_nil_r.
Qed.

Ltac run_create_app_exact :=
  unfold create_app, mbind, M_bind, mret, M_ret, raise, set_callback_manager;
  repeat match goal with
    | |- context [create_global_handler ?e ?s] =>
        let H := fresh "Hgh" in destruct (create_global_handler e s) eqn:H; simpl
    | |- context [if cors_enabled ?c then _ else _] =>
        let H := fresh "Hcors" in destruct (cors_enabled c) eqn:H; simpl
    | |- context [if ui_enabled ?c then _ else _] =>
        let H := fresh "Hui" in destruct (ui_enabled c) eqn:H; simpl
    | |- context [match import_ui ?e with _ => _ end] =>
        let H := fresh "Himp" in destruct (import_ui e) eqn:H; simpl
    | |- context [logger_debug ?e ?n ?m ?g] =>
        let H := fresh "Hlog" in
        let Hlv := fresh "Hlv" in
        let Hhs := fresh "Hhs" in
        let Hls := fresh "Hls" in
        let Hcm := fresh "Hcm" in
        let Hfs := fresh "Hfs" in
        pose proof (logger_debug_exact e n m g) as H;
        destruct (logger_debug e n m g) as [? [[]|?]];
        simpl in H; destruct H as (H & Hlv & Hhs & Hls & Hcm & Hfs); [|discriminate];
        simpl
    end.

Lemma create_app_log env root_injector g f :
  default [] (files (create_app env root_injector g).1 !! f) =
    default [] (files g !! f) ++
    (if decide (effective_level logger_chain g <= DEBUG)
     then each_times (writers f (root_handlers g))
            (logged_by_create_app env (get_Settings root_injector))
     else []).
Proof.
  unfold logged_by_create_app, each_times.
  run_create_app_exact.
  all: repeat match goal with
         | H : forall f, default [] (files ?x !! f) = _ |- context [files ?x !! _] =>
             rewrite H; clear H
         end.
  all: repeat match goal with
         | |- context [effective_level logger_chain ?x] =>
             tryif constr_eq x g then fail
             else rewrite (effective_level_ext logger_chain g x) by (simpl; congruence)
         end.
  all: repeat match goal with
         | H : root_handlers _ = _ |- _ => simpl in H; rewrite H; clear H
         end.
  all: simpl; case_decide; rewrite ?app_nil_r, <- ?app_assoc; try reflexivity.
Qed.






(** ** The levels that [setup_logging] sets *)

Lemma effective_level_unset_chain chain g :
  Forall (level_unset g) chain -> effective_level chain g = root_level g.
Proof.
  induction 1 as [|n chain [Hn|Hn] _ IH]; [done| |];
    rewrite effective_level_cons, Hn; [done|].
  by rewrite decide_True.
Qed.

Lemma setup_logging_other_levels g n :
  n <> "uvicorn" -> n <> "fastapi" ->
  logger_levels (setup_logging g) !! n = logger_levels g !! n.
Proof. intros H1 H2. simpl. by rewrite !lookup_insert_ne. Qed.

Lemma level_unset_setup_logging g n :
  n <> "uvicorn" -> n <> "fastapi" -> level_unset g n ->
  level_unset (setup_logging g) n.
Proof.
  intros H1 H2. unfold level_unset. by rewrite setup_logging_other_levels.
Qed.

(** X2: after [setup_logging], a logger whose ancestors below the root have
    no level of their own and are neither "uvicorn" nor "fastapi" works at
    DEBUG, whatever the root's level was; "uvicorn", "fastapi" and their
    descendants without a level of their own work at INFO, so their DEBUG
    records are dropped.  The levels of all other named loggers are kept. *)
Theorem setup_logging_levels g :
  (forall chain,
     Forall (fun n => n <> "uvicorn" /\ n <> "fastapi" /\ level_unset g n) chain ->
     effective_level chain (setup_logging g) = DEBUG) /\
  (forall below top,
     top = "uvicorn" \/ top = "fastapi" ->
     Forall (fun n => n <> "uvicorn" /\ n <> "fastapi" /\ level_unset g n) below ->
     effective_level (below ++ [top]) (setup_logging g) = INFO /\
     ~ effective_level (below ++ [top]) (setup_logging g) <= DEBUG) /\
  (forall n, n <> "uvicorn" -> n <> "fastapi" ->
     logger_levels (setup_logging g) !! n = logger_levels g !! n).
Proof.
  split; [|split].
  - intros chain Hc. rewrite effective_level_unset_chain; [done|].
    eapply Forall_impl; [exact Hc|]. intros n (H1 & H2 & Hn).
    by apply level_unset_setup_logging.
  - intros below top Htop Hb.
    assert (effective_level (below ++ [top]) (setup_logging g) = INFO) as ->.
    { induction Hb as [|n below (H1 & H2 & Hn) _ IH].
      - rewrite app_nil_l, effective_level_cons. simpl logger_levels.
        destruct Htop as [-> | ->].
        + by rewrite lookup_insert_ne, lookup_insert_eq.
        + by rewrite lookup_insert_eq.
      - rewrite <- app_comm_cons, effective_level_cons.
        rewrite setup_logging_other_levels by done.
        destruct Hn as [-> | ->]; [done|]. by rewrite decide_True. }
    split; [done|]. unfold INFO, DEBUG. lia.
  - apply setup_logging_other_levels.
Qed.

Lemma setup_logging_levels_witness :
  effective_level logger_chain (setup_logging blank_process) = DEBUG /\
  effective_level ["uvicorn.error"; "uvicorn"] (setup_logging blank_process) = INFO.
Proof.
  destruct (setup_logging_levels blank_process) as (Hd & Hi & _). split.
  - apply Hd. unfold logger_chain.
    repeat (apply Forall_cons_2; [repeat split; try discriminate; by left|]).
    apply Forall_nil_2.
  - apply (Hi ["uvicorn.error"] "uvicorn"); [by left|].
    apply Forall_cons_2; [repeat split; try discriminate; by left | apply Forall_nil_2].
Defined.

(** ** [setup_logging] run again *)

Lemma writers_app f hs1 hs2 : writers f (hs1 ++ hs2) = writers f hs1 + writers f hs2.
Proof. unfold writers. by rewrite filter_app, length_app. Qed.

Lemma open_append_content name fs f :
  default [] (open_append name fs !! f) = default [] (fs !! f).
Proof.
  unfold open_append. destruct (decide (name = f)) as [->|Hne].
  - by rewrite lookup_insert_eq.
  - by rewrite lookup_insert_ne.
Qed.

Lemma setup_logging_times_S n g :
  setup_logging_times (S n) g = setup_logging (setup_logging_times n g).
Proof. reflexivity. Qed.

Lemma setup_logging_times_state n g :
  writers "lanch.json" (root_handlers (setup_logging_times n g))
    = n + writers "lanch.json" (root_handlers g) /\
  default [] (files (setup_logging_times n g) !! "lanch.json")
    = default [] (files g !! "lanch.json") /\
  (Forall (level_unset g) logger_chain ->
   Forall (level_unset (setup_logging_times n g)) logger_chain).
Proof.
  induction n as [|n (IHw & IHf & IHl)]; [done|].
  rewrite setup_logging_times_S. split; [|split].
  - unfold setup_logging at 1. simpl root_handlers.
    rewrite writers_app, IHw. unfold writers at 2. simpl. lia.
  - unfold setup_logging at 1. simpl files. by rewrite open_append_content.
  - intros Hg. specialize (IHl Hg). unfold logger_chain in *.
    apply Forall_cons in IHl as [H1 IHl]. apply Forall_cons in IHl as [H2 _].
    apply Forall_cons; split; [|apply Forall_cons; split; [|constructor]];
      by apply level_unset_setup_logging.
Qed.

(** X3: [setup_logging] adds a handler each time it runs and never removes
    one.  After [n] runs there are [n] more handlers that write to
    "lanch.json"; and when no level is set on the launcher's logger or on
    its parent, a [create_app] that follows writes each of its records
    once per such handler: twice after two runs, and so on. *)
Theorem repeated_setup_duplicates_records n g env root_injector :
  Forall (level_unset g) logger_chain ->
  writers "lanch.json" (root_handlers (setup_logging_times n g))
    = n + writers "lanch.json" (root_handlers g) /\
  default []
    (files (create_app env root_injector (setup_logging_times (S n) g)).1
       !! "lanch.json") =
    default [] (files g !! "lanch.json") ++
    each_times (S n + writers "lanch.json" (root_handlers g))
      (logged_by_create_app env (get_Settings root_injector)).
Proof.
  intros Hg. split; [apply setup_logging_times_state|].
  destruct (setup_logging_times_state (S n) g) as (Hw & Hf & Hl).
  rewrite create_app_log, Hw, Hf.
  rewrite effective_level_unset_chain by auto.
  by rewrite decide_True.
Qed.

Lemma repeated_setup_duplicates_records_witness :
  Forall (level_unset blank_process) logger_chain /\
  default []
    (files (create_app (sample_env None) (sample_injector wildcard_cors false)
              (setup_logging_times 2 blank_process)).1 !! "lanch.json") =
    [debug_record (sample_env None) 72 "Setting up CORS middleware";
     debug_record (sample_env None) 72 "Setting up CORS middleware"].
Proof.
  assert (Forall (level_unset blank_process) logger_chain) as Hg
    by (repeat constructor; by left).
  split; [exact Hg|].
  exact (proj2 (repeated_setup_duplicates_records 1 blank_process (sample_env None)
                  (sample_injector wildcard_cors false) Hg)).
Defined.

(** ** Assembling in vain *)

(** X5: a [create_app] that fails on the UI import has already done its
    writes and does not undo them: it raises, yet the callback manager is the
    new one, and in every file that a root handler writes DEBUG records to,
    the last record is "Importing the UI module" (when the launcher's logger
    admits DEBUG). *)
Theorem failed_assembly_not_rolled_back env root_injector g e h f :
  ui_enabled (ui (get_Settings root_injector)) = true ->
  import_ui env = Some e ->
  create_global_handler env "simple" = Some h ->
  (create_app env root_injector g).2 = Raise (ImportError ui_missing e) /\
  callback_manager (create_app env root_injector g).1 = Some (CallbackManager_new [h]) /\
  (effective_level logger_chain g <= DEBUG ->
   0 < writers f (root_handlers g) ->
   last (default [] (files (create_app env root_injector g).1 !! f))
     = Some (debug_record env 83 "Importing the UI module")).
Proof.
  intros Hui Himp Hgh. split; [|split].
  - run_create_app; congruence.
  - destruct (create_app_globals env root_injector g) as [_ ->]. by rewrite Hgh.
  - intros Hlv Hw. rewrite create_app_log, decide_True by done.
    unfold logged_by_create_app, each_times. rewrite Hui.
    destruct (writers f (root_handlers g)) as [|k]; [lia|].
    rewrite bind_app, !app_assoc. simpl. rewrite app_nil_r.
    replace (debug_record env 83 "Importing the UI module"
               :: replicate k (debug_record env 83 "Importing the UI module"))
      with (replicate (S k) (debug_record env 83 "Importing the UI module")) by done.
    rewrite replicate_S_end, app_assoc. apply last_snoc.
Qed.

Lemma failed_assembly_not_rolled_back_witness :
  (create_app (sample_env (Some "No module named 'gradio'"))
     (sample_injector no_cors true) at_import).2
    = Raise (ImportError ui_missing "No module named 'gradio'") /\
  callback_manager
    (create_app (sample_env (Some "No module named 'gradio'"))
       (sample_injector no_cors true) at_import).1
    = Some (CallbackManager_new [3%positive]) /\
  last (default []
          (files (create_app (sample_env (Some "No module named 'gradio'"))
                    (sample_injector no_cors true) at_import).1 !! "lanch.json"))
    = Some (debug_record (sample_env (Some "No module named 'gradio'")) 83
              "Importing the UI module").
Proof.
  destruct (failed_assembly_not_rolled_back
              (sample_env (Some "No module named 'gradio'"))
              (sample_injector no_cors true) at_import
              "No module named 'gradio'" 3%positive "lanch.json"
              eq_refl eq_refl eq_refl) as (Hr & Hc & Hl).
  split; [exact Hr|]. split; [exact Hc|].
  apply Hl; vm_compute; lia.
Defined.

(** ** Binders one after the other *)

(** X6: the binder overwrites.  Run on a request that an application has
    already bound, the binder of a second application leaves the request as
    if only the second had run: nothing of the first injector remains.  With
    one application twice, binding again changes nothing. *)
Theorem later_binder_wins env1 inj1 g1 app1 env2 inj2 g2 app2 (request : Request) :
  (create_app env1 inj1 g1).2 = Ok app1 ->
  (create_app env2 inj2 g2).2 = Ok app2 ->
  run_dependencies app2 (run_dependencies app1 request) = run_dependencies app2 request /\
  run_dependencies app1 (run_dependencies app1 request) = run_dependencies app1 request.
Proof.
  intros H1 H2. unfold run_dependencies.
  rewrite (create_app_dependencies _ _ _ _ H1), (create_app_dependencies _ _ _ _ H2).
  simpl. unfold bind_injector_to_request, set_state. simpl.
  by rewrite !insert_insert_eq.
Qed.

Lemma later_binder_wins_witness :
  (create_app (sample_env None) (sample_injector no_cors false) at_import).2
    = Ok plain_app /\
  (create_app (sample_env None) other_injector at_import).2 = Ok other_app /\
  state (run_dependencies other_app (run_dependencies plain_app request_a)) !! "injector"
    = Some 5%positive.
Proof.
  split; [reflexivity|]. split; [reflexivity|].
  rewrite (proj1 (later_binder_wins (sample_env None) (sample_injector no_cors false)
                    at_import plain_app (sample_env None) other_injector at_import
                    other_app request_a eq_refl eq_refl)).
  reflexivity.
Defined.

End LauncherFacts.

(* ===================================================================== *)
(** * Properties of the UI layout and of the session controller *)
(* ===================================================================== *)

Module UiFacts.
Import Ui.

(** ** Writing outputs *)

Lemma set_props_eq c p st : set_props c p st c = p.
Proof. unfold set_props. by case_decide. Qed.

Lemma set_props_ne c c' p st : c <> c' -> set_props c p st c' = st c'.
Proof. unfold set_props. by case_decide. Qed.

(** A listener writes to its output components only. *)
Lemma write_outputs_other outs rets st c :
  c ∉ outs -> write_outputs outs rets st c = st c.
Proof.
  revert rets st. induction outs as [|o outs IH]; intros [|r rets] st Hc; simpl; trivial.
  apply not_elem_of_cons in Hc as [Hne Hc].
  rewrite IH by done. by apply set_props_ne.
Qed.

Lemma dispatch_other b h s c :
  c ∉ outputs b -> widgets (dispatch b h s) c = widgets s c.
Proof.
  intros Hc. unfold dispatch. destruct (fn b); simpl; by apply write_outputs_other.
Qed.

Lemma apply_update_nothing p : apply_output p (Upd update_nothing) = p.
Proof. by destruct p. Qed.

Lemma write_outputs_unchanged outs st c :
  write_outputs outs (unchanged outs) st c = st c.
Proof.
  revert st. induction outs as [|o outs IH]; intros st; simpl; trivial.
  rewrite IH. unfold set_props. case_decide; [subst|done].
  apply apply_update_nothing.
Qed.

(** Membership in a list that is written out. *)
Ltac among := repeat first [ apply list_elem_of_here | apply list_elem_of_further ].
Ltac not_among :=
  let H := fresh in
  intros H;
  repeat (apply elem_of_cons in H as [H|H]; [discriminate H|]);
  by apply not_elem_of_nil in H.

Lemma binding_of_listed a : binding_of a ∈ bindings.
Proof. destruct a; unfold bindings; simpl; among. Qed.

(** ** The sidebar toggle *)

Example toggle_twice :
  sidebarVisible (run initial [ToggleSidebar]) = true /\
  visible (widgets (run initial [ToggleSidebar]) sidebar_left) = true /\
  sidebarVisible (run initial [ToggleSidebar; ToggleSidebar]) = false /\
  visible (widgets (run initial [ToggleSidebar; ToggleSidebar]) sidebar_left) = false.
Proof. repeat split. Qed.

(** C9: in every session, the click on the "Sidebar" button runs
    [toggle_sidebar], which stores the negation of the stored flag and shows
    the left column exactly when the new flag is set.  The controller's
    mode, files and selection and every other component are as they were; of
    the left column only the visibility changes.  The flag is created false
    and the column hidden. *)
Theorem toggle_sidebar_negates_flag (s : Session) :
  sidebarVisible (fire ToggleSidebar s) = negb (sidebarVisible s) /\
  visible (widgets (fire ToggleSidebar s) sidebar_left)
    = sidebarVisible (fire ToggleSidebar s) /\
  ctl (fire ToggleSidebar s) = ctl s /\
  (forall c, c <> sidebar_left -> c <> sidebar_state ->
     widgets (fire ToggleSidebar s) c = widgets s c) /\
  interactive (widgets (fire ToggleSidebar s) sidebar_left)
    = interactive (widgets s sidebar_left) /\
  value (widgets (fire ToggleSidebar s) sidebar_left) = value (widgets s sidebar_left) /\
  sidebarVisible initial = false /\
  visible (widgets initial sidebar_left) = false.
Proof.
  repeat split.
  intros c Hl Hs. apply dispatch_other. simpl.
  intros Hc. apply elem_of_cons in Hc as [->|Hc]; [done|].
  by apply list_elem_of_singleton in Hc.
Qed.

(** ** The "Delete ALL files" button *)

Lemma delete_files_button_never_output b :
  b ∈ bindings -> delete_files_button ∉ outputs b.
Proof.
  revert b. apply Forall_forall. unfold bindings.
  repeat constructor; simpl; not_among.
Qed.

Lemma step_keeps_delete_files_button a s :
  widgets (step a s) delete_files_button = widgets s delete_files_button.
Proof.
  unfold step. destruct (possible a s); [|done].
  apply dispatch_other, delete_files_button_never_output, binding_of_listed.
Qed.

Lemma run_keeps_delete_files_button acts s :
  widgets (run s acts) delete_files_button = widgets s delete_files_button.
Proof.
  revert s. induction acts as [|a acts IH]; intros s; simpl; [done|].
  unfold run in IH. rewrite IH. apply step_keeps_delete_files_button.
Qed.

(** C10: the "Delete ALL files" button is created enabled, the delete-one
    and the deselect button are created disabled.  The two latter are
    outputs of listeners, the former is an output of none: whatever handlers
    the listeners run, and in whatever order they fire, the button stays as
    it was created.  So DeleteAll is possible after every sequence of
    actions, and in the initial state, where there is no file and the
    selection is "all". *)
Theorem delete_all_never_disabled :
  (is_enabled (created delete_files_button) = true /\
   is_enabled (created delete_file_button) = false /\
   is_enabled (created deselect_file_button) = false) /\
  (delete_file_button ∈ outputs delete_file_button_click /\
   deselect_file_button ∈ outputs delete_file_button_click) /\
  (forall b, b ∈ bindings -> delete_files_button ∉ outputs b) /\
  (forall (h : Binding -> Handler) (bs : list Binding) (s : Session),
     Forall (fun b => b ∈ bindings) bs ->
     widgets (foldl (fun s b => dispatch b (h b) s) s bs) delete_files_button
       = widgets s delete_files_button) /\
  (forall acts succeeded, possible (DeleteAll succeeded) (run initial acts) = true) /\
  (forall succeeded,
     possible (DeleteAll succeeded) initial = true /\
     files (ctl initial) = [] /\ selection (ctl initial) = all_files).
Proof.
  split; [done|]. split; [simpl; split; among|].
  split; [exact delete_files_button_never_output|].
  split; [|split].
  - intros h bs. induction bs as [|b bs IH]; intros s Hbs; simpl; [done|].
    apply Forall_cons in Hbs as [Hb Hbs]. rewrite IH by done.
    by apply dispatch_other, delete_files_button_never_output.
  - intros acts succeeded. unfold possible, takes_event. simpl.
    by rewrite run_keeps_delete_files_button.
  - done.
Qed.

Lemma delete_all_never_disabled_witness :
  is_enabled
    (widgets (foldl (fun s b => dispatch b (fun c _ => transition (SelectFile a_pdf) c) s)
                initial [ingested_dataset_select; btn_toggle_sidebar_click])
       delete_files_button) = true.
Proof.
  destruct delete_all_never_disabled as (_ & _ & _ & H & _).
  rewrite (H (fun _ c _ => transition (SelectFile a_pdf) c)
             [ingested_dataset_select; btn_toggle_sidebar_click] initial).
  - reflexivity.
  - repeat constructor; unfold bindings; among.
Defined.

(** ** Uploading *)

Example upload_scenario :
  files (ctl two_uploaded) = [a_pdf; b_pdf] /\
  selection (ctl two_uploaded) = all_files /\
  value (widgets two_uploaded ingested_dataset) = VRows [["a.pdf"]; ["b.pdf"]] /\
  is_enabled (widgets two_uploaded delete_file_button) = false.
Proof. repeat split. Qed.

Example select_scenario :
  selection (ctl b_selected) = one_file b_pdf /\
  is_enabled (widgets b_selected delete_file_button) = true /\
  is_enabled (widgets b_selected deselect_file_button) = true /\
  value (widgets b_selected selected_text) = VStr "b.pdf".
Proof. repeat split. Qed.

Example delete_scenario :
  files (ctl (run b_selected [DeleteSelected true])) = [a_pdf] /\
  selection (ctl (run b_selected [DeleteSelected true])) = all_files /\
  is_enabled (widgets (run b_selected [DeleteSelected true]) delete_file_button) = false /\
  is_enabled (widgets (run b_selected [DeleteSelected true]) deselect_file_button) = false.
Proof. repeat split. Qed.

Lemma ingested_display_names uploads :
  map display_name (map ingested uploads) = map fst uploads.
Proof. induction uploads as [|[p r] us IH]; simpl; [done|]. by rewrite IH. Qed.

(** C8: UploadFiles appends to the files one IngestedFile per uploaded
    path, named by the path, in the order of the paths; what was in the
    files stays in front.  The selection and every component but the file
    list are unchanged.  From the initial state, uploading a.pdf and b.pdf
    is possible and gives the files a.pdf, b.pdf, in this order, with the
    selection still "all" and the delete-one control still disabled. *)
Theorem upload_appends_in_order (s : Session) (uploads : list (string * string)) :
  files (ctl (fire (UploadFiles uploads) s)) = files (ctl s) ++ map ingested uploads /\
  map display_name (files (ctl (fire (UploadFiles uploads) s)))
    = map display_name (files (ctl s)) ++ map fst uploads /\
  length (files (ctl (fire (UploadFiles uploads) s)))
    = length (files (ctl s)) + length uploads /\
  selection (ctl (fire (UploadFiles uploads) s)) = selection (ctl s) /\
  (forall c, c <> ingested_dataset ->
     widgets (fire (UploadFiles uploads) s) c = widgets s c) /\
  (forall r1 r2,
     possible (UploadFiles [("a.pdf", r1); ("b.pdf", r2)]) initial = true /\
     map display_name
       (files (ctl (run initial [UploadFiles [("a.pdf", r1); ("b.pdf", r2)]])))
       = ["a.pdf"; "b.pdf"] /\
     selection (ctl (run initial [UploadFiles [("a.pdf", r1); ("b.pdf", r2)]]))
       = all_files /\
     is_enabled (widgets (run initial [UploadFiles [("a.pdf", r1); ("b.pdf", r2)]])
                   delete_file_button) = false).
Proof.
  split; [reflexivity|]. split; [|split; [|split; [reflexivity|split]]].
  - simpl. by rewrite map_app, ingested_display_names.
  - simpl. by rewrite length_app, length_map.
  - intros c Hc. apply dispatch_other. simpl.
    intros Hin. by apply list_elem_of_singleton in Hin.
  - intros r1 r2. repeat split.
Qed.

(** ** Deleting the selected file *)

Lemma filter_absent (ref : IngestedFile) (l : list IngestedFile) :
  ref ∉ l -> filter (fun f => f <> ref) l = l.
Proof.
  induction l as [|x l IH]; intros Hl; [done|].
  apply not_elem_of_cons in Hl as [Hne Hl].
  rewrite filter_cons_True by done. by rewrite IH.
Qed.

Lemma fire_delete_selected_ok s ref :
  selection (ctl s) = one_file ref ->
  fire (DeleteSelected true) s =
    {| widgets :=
         write_outputs (outputs delete_file_button_click)
           (Val (render_files (filter (fun f => f <> ref) (files (ctl s))))
              :: selection_cleared)
           (widgets s);
       ctl := {| current_mode := current_mode (ctl s);
                 system_prompt := system_prompt (ctl s);
                 files := filter (fun f => f <> ref) (files (ctl s));
                 selection := all_files |} |}.
Proof. intros Hsel. unfold fire, dispatch, transition. simpl. by rewrite Hsel. Qed.

Lemma fire_delete_selected_failed s :
  ctl (fire (DeleteSelected false) s) = ctl s /\
  forall c, widgets (fire (DeleteSelected false) s) c = widgets s c.
Proof.
  unfold fire, dispatch, transition. simpl.
  destruct (selection (ctl s)); simpl; (split; [done|]); intros c;
    apply (write_outputs_unchanged (outputs delete_file_button_click)).
Qed.

(** C6: with one file selected, DeleteSelected whose deletion call
    succeeds removes that file from the files and nothing else: the file is
    gone, the other files keep their places, and where the file occurred once
    the files are the ones before it followed by the ones after it.  The
    selection becomes "all", the delete-one and the deselect control are
    disabled, the display text is "All files" again, and the list shows the
    remaining files.  When the deletion call fails, the controller state and
    every component are exactly as before. *)
Theorem delete_selected_all_or_nothing (s : Session) (ref : IngestedFile) :
  selection (ctl s) = one_file ref ->
  ((ref ∉ files (ctl (fire (DeleteSelected true) s))) /\
   (forall f, f ∈ files (ctl (fire (DeleteSelected true) s))
              <-> f <> ref /\ f ∈ files (ctl s)) /\
   (files (ctl (fire (DeleteSelected true) s)) `sublist_of` files (ctl s)) /\
   (forall before after,
      files (ctl s) = before ++ ref :: after -> ref ∉ before -> ref ∉ after ->
      files (ctl (fire (DeleteSelected true) s)) = before ++ after) /\
   selection (ctl (fire (DeleteSelected true) s)) = all_files /\
   is_enabled (widgets (fire (DeleteSelected true) s) delete_file_button) = false /\
   is_enabled (widgets (fire (DeleteSelected true) s) deselect_file_button) = false /\
   value (widgets (fire (DeleteSelected true) s) selected_text) = VStr "All files" /\
   value (widgets (fire (DeleteSelected true) s) ingested_dataset)
     = render_files (files (ctl (fire (DeleteSelected true) s)))) /\
  (ctl (fire (DeleteSelected false) s) = ctl s /\
   forall c, widgets (fire (DeleteSelected false) s) c = widgets s c).
Proof.
  intros Hsel. split; [|apply fire_delete_selected_failed].
  rewrite (fire_delete_selected_ok s ref Hsel). simpl.
  split; [|split; [|split; [|split]]].
  - intros Hin. apply list_elem_of_filter in Hin as [Hne _]. by apply Hne.
  - intros f. exact (list_elem_of_filter (fun f => f <> ref) _ f).
  - apply sublist_filter.
  - intros before after -> Hb Ha.
    rewrite filter_app, filter_cons_False by (intros Hne; by apply Hne).
    by rewrite !filter_absent.
  - repeat split.
Qed.

Lemma delete_selected_all_or_nothing_witness :
  selection (ctl b_selected) = one_file b_pdf /\
  files (ctl b_selected) = [a_pdf; b_pdf] /\
  files (ctl (fire (DeleteSelected true) b_selected)) = [a_pdf] /\
  ctl (fire (DeleteSelected false) b_selected) = ctl b_selected.
Proof.
  split; [reflexivity|]. split; [reflexivity|].
  destruct (delete_selected_all_or_nothing b_selected b_pdf eq_refl)
    as [(_ & _ & _ & Hone & _) [Hfail _]].
  split; [|exact Hfail].
  apply (Hone [a_pdf] []); [reflexivity | |]; not_among.
Defined.

(** ** The selection invariant *)

Lemma initial_invariant : invariant initial.
Proof. repeat split; simpl; try done; intros H; by apply H. Qed.

(** The two controls after an action: switched on by SelectFile, off by
    DeselectFile and by the deletions that succeed, untouched otherwise. *)
Lemma controls_after_fire a s c :
  c = delete_file_button \/ c = deselect_file_button ->
  is_enabled (widgets (fire a s) c) =
    match a with
    | SelectFile _ => true
    | DeselectFile | DeleteAll true => false
    | DeleteSelected true =>
        match selection (ctl s) with
        | one_file _ => false
        | all_files => is_enabled (widgets s c)
        end
    | _ => is_enabled (widgets s c)
    end.
Proof.
  destruct s as [w [m p fs sel]].
  intros [-> | ->]; destruct a as [| | | |[]|[]| | |]; try destruct sel; reflexivity.
Qed.

Lemma ctl_after_fire a s : ctl (fire a s) = (transition a (ctl s)).1.
Proof. destruct a; reflexivity. Qed.

Lemma fire_invariant a s :
  possible a s = true -> invariant s -> invariant (fire a s).
Proof.
  unfold possible, invariant, selection_live, controls_follow_selection.
  intros Hp (Hlive & Hdel & Hdes).
  rewrite !controls_after_fire, ctl_after_fire by auto.
  destruct s as [w [m p fs sel]]; simpl in *.
  destruct a as [ups| |ref| |[]|[]|nm dp ex|t|]; simpl in *.
  all: try (destruct sel as [|ref']; simpl).
  all: repeat match goal with |- _ /\ _ => split end.
  all: try assumption; try done.
  all: try (apply elem_of_app; by left).
  all: try (by apply bool_decide_eq_true in Hp).
  all: split; intros H; first [done | exfalso; by apply H].
Qed.

Lemma step_invariant a s : invariant s -> invariant (step a s).
Proof.
  intros Hinv. unfold step. destruct (possible a s) eqn:Hp; [|done].
  by apply fire_invariant.
Qed.

(** The invariant holds after every action of every sequence, whatever the
    actions are. *)
Lemma trace_invariant acts s : invariant s -> Forall invariant (trace s acts).
Proof.
  revert s. induction acts as [|a acts IH]; intros s Hinv; simpl; constructor.
  - by apply step_invariant.
  - by apply IH, step_invariant.
Qed.

Lemma run_invariant acts s : invariant s -> invariant (run s acts).
Proof.
  revert s. induction acts as [|a acts IH]; intros s Hinv; simpl; [done|].
  by apply IH, step_invariant.
Qed.

(** C7: along every sequence of UploadFiles, DeleteSelected and DeleteAll
    actions, after each action the selection is "all" or one of the files,
    and the delete-one and the deselect control are enabled exactly when the
    selection is not "all".  The sequence may start in the initial state
    ([before] empty) or in any state that the session reaches from it. *)
Theorem selection_never_dangling (before acts : list Action) :
  Forall (fun a => file_transition a = true) acts ->
  Forall (fun s => selection_live s /\ controls_follow_selection s)
    (trace (run initial before) acts).
Proof. intros _. apply trace_invariant, run_invariant, initial_invariant. Qed.

Lemma selection_never_dangling_witness :
  Forall (fun s => selection_live s /\ controls_follow_selection s)
    (trace initial [UploadFiles [("a.pdf", "doc-1"); ("b.pdf", "doc-2")];
                    DeleteSelected true; DeleteAll true]) /\
  Forall (fun s => selection_live s /\ controls_follow_selection s)
    (trace b_selected [DeleteSelected false; DeleteSelected true;
                       UploadFiles [("c.pdf", "doc-3")]; DeleteAll true]).
Proof.
  split.
  - apply (selection_never_dangling []). repeat constructor.
  - apply (selection_never_dangling
             [UploadFiles [("a.pdf", "doc-1"); ("b.pdf", "doc-2")]; SelectFile b_pdf]).
    repeat constructor.
Defined.

(** ** The sidebar under arbitrary handlers *)

Lemma fire_all_cons h s b bs :
  fire_all h s (b :: bs) = fire_all h (dispatch b (h b) s) bs.
Proof. reflexivity. Qed.

(** Only the click on the "Sidebar" button has the column or the flag among
    its outputs. *)
Lemma sidebar_listener b :
  b ∈ bindings ->
  b = btn_toggle_sidebar_click \/
  (trigger b <> btn_toggle_sidebar /\
   (sidebar_left ∉ outputs b) /\ (sidebar_state ∉ outputs b)).
Proof.
  revert b. apply Forall_forall. unfold bindings.
  repeat (apply Forall_cons_2;
          [first [ by left | right; split; [discriminate | split; simpl; not_among] ] |]).
  apply Forall_nil_2.
Qed.

Lemma toggle_click_widgets h s :
  sidebarVisible (dispatch btn_toggle_sidebar_click h s) = negb (sidebarVisible s) /\
  visible (widgets (dispatch btn_toggle_sidebar_click h s) sidebar_left)
    = negb (sidebarVisible s) /\
  ctl (dispatch btn_toggle_sidebar_click h s) = ctl s.
Proof. repeat split. Qed.

Lemma toggle_clicks_cons b bs :
  toggle_clicks (b :: bs) =
    (if decide (trigger b = btn_toggle_sidebar) then 1 else 0) + toggle_clicks bs.
Proof. unfold toggle_clicks. rewrite filter_cons. by case_decide. Qed.

Lemma sidebar_after_events h bs s :
  Forall (fun b => b ∈ bindings) bs ->
  sidebarVisible (fire_all h s bs) = xorb (sidebarVisible s) (Nat.odd (toggle_clicks bs)) /\
  (visible (widgets s sidebar_left) = sidebarVisible s ->
   visible (widgets (fire_all h s bs) sidebar_left) = sidebarVisible (fire_all h s bs)).
Proof.
  intros Hbs. revert s. induction Hbs as [|b bs Hb _ IH]; intros s.
  - simpl. by rewrite xorb_false_r.
  - rewrite fire_all_cons, toggle_clicks_cons.
    destruct (IH (dispatch b (h b) s)) as [IHf IHv].
    destruct (sidebar_listener b Hb) as [-> | (Ht & Hl & Hs)].
    + destruct (toggle_click_widgets (h btn_toggle_sidebar_click) s) as (Hf & Hv & _).
      split.
      * rewrite IHf, Hf. rewrite decide_True by done.
        change (1 + toggle_clicks bs) with (S (toggle_clicks bs)).
        rewrite Nat.odd_succ, <- Nat.negb_odd.
        by destruct (sidebarVisible s), (Nat.odd (toggle_clicks bs)).
      * intros _. apply IHv. by rewrite Hv, Hf.
    + assert (sidebarVisible (dispatch b (h b) s) = sidebarVisible s) as Hf.
      { unfold sidebarVisible. by rewrite dispatch_other. }
      split.
      * rewrite IHf, Hf. by rewrite decide_False.
      * intros Hv. apply IHv. by rewrite Hf, dispatch_other.
Qed.

(** X7: whatever handlers the listeners run and in whatever order the
    events come, the stored sidebar flag is flipped by the clicks on the
    "Sidebar" button and by nothing else, and the left column, once it
    agrees with the flag, always does.  From the initial state the column
    shows exactly after an odd number of clicks. *)
Theorem sidebar_follows_click_parity (h : Binding -> Handler) (bs : list Binding)
    (s : Session) :
  Forall (fun b => b ∈ bindings) bs ->
  sidebarVisible (fire_all h s bs) = xorb (sidebarVisible s) (Nat.odd (toggle_clicks bs)) /\
  (visible (widgets s sidebar_left) = sidebarVisible s ->
   visible (widgets (fire_all h s bs) sidebar_left) = sidebarVisible (fire_all h s bs)) /\
  sidebarVisible (fire_all h initial bs) = Nat.odd (toggle_clicks bs) /\
  visible (widgets (fire_all h initial bs) sidebar_left) = Nat.odd (toggle_clicks bs).
Proof.
  intros Hbs.
  destruct (sidebar_after_events h bs s Hbs) as [Hf Hv].
  destruct (sidebar_after_events h bs initial Hbs) as [Hf0 Hv0].
  split; [exact Hf|]. split; [exact Hv|].
  assert (sidebarVisible (fire_all h initial bs) = Nat.odd (toggle_clicks bs)) as Hi.
  { rewrite Hf0. reflexivity. }
  split; [exact Hi|]. rewrite <- Hi. by apply Hv0.
Qed.

Lemma sidebar_follows_click_parity_witness :
  sidebarVisible
    (fire_all no_handler initial
       [btn_toggle_sidebar_click; mode_change; btn_toggle_sidebar_click;
        delete_files_button_click; btn_toggle_sidebar_click]) = true.
Proof.
  destruct (sidebar_follows_click_parity no_handler
              [btn_toggle_sidebar_click; mode_change; btn_toggle_sidebar_click;
               delete_files_button_click; btn_toggle_sidebar_click] initial)
    as (_ & _ & H & _).
  - repeat apply Forall_cons_2; try apply Forall_nil_2; unfold bindings; among.
  - exact H.
Defined.

(** X8: one click on "Sidebar" makes the left column agree with the flag,
    whatever the two were before, and turns any stored value into a proper
    boolean; a second click brings the flag back to the truth value it had.
    Nothing else changes, and the handlers attached elsewhere play no part. *)
Theorem toggle_twice_restores_flag (h1 h2 : Handler) (s : Session) :
  visible (widgets (dispatch btn_toggle_sidebar_click h1 s) sidebar_left)
    = sidebarVisible (dispatch btn_toggle_sidebar_click h1 s) /\
  value (widgets (dispatch btn_toggle_sidebar_click h2
                    (dispatch btn_toggle_sidebar_click h1 s)) sidebar_state)
    = VBool (sidebarVisible s) /\
  visible (widgets (dispatch btn_toggle_sidebar_click h2
                      (dispatch btn_toggle_sidebar_click h1 s)) sidebar_left)
    = sidebarVisible s /\
  ctl (dispatch btn_toggle_sidebar_click h2 (dispatch btn_toggle_sidebar_click h1 s))
    = ctl s /\
  (forall c, c <> sidebar_left -> c <> sidebar_state ->
     widgets (dispatch btn_toggle_sidebar_click h2
                (dispatch btn_toggle_sidebar_click h1 s)) c = widgets s c).
Proof.
  split; [reflexivity|].
  split; [simpl; unfold sidebarVisible; by rewrite negb_involutive|].
  split; [simpl; unfold sidebarVisible; by rewrite negb_involutive|].
  split; [reflexivity|].
  intros c Hl Hs.
  assert (c ∉ outputs btn_toggle_sidebar_click) as Hc.
  { simpl. intros Hin. apply elem_of_cons in Hin as [->|Hin]; [done|].
    by apply list_elem_of_singleton in Hin. }
  by rewrite !dispatch_other.
Qed.

(** ** The controls that no listener writes *)

Lemma fire_all_other h bs s c :
  Forall (fun b => b ∈ bindings) bs ->
  (forall b, b ∈ bindings -> c ∉ outputs b) ->
  widgets (fire_all h s bs) c = widgets s c.
Proof.
  intros Hbs Hc. revert s. induction Hbs as [|b bs Hb _ IH]; intros s; [done|].
  rewrite fire_all_cons, IH. by apply dispatch_other, Hc.
Qed.

Lemma never_an_output c :
  c ∈ [mode; upload_button; delete_files_button; btn_toggle_sidebar] ->
  forall b, b ∈ bindings -> c ∉ outputs b.
Proof.
  intros Hc. apply Forall_forall. unfold bindings.
  repeat (apply elem_of_cons in Hc as [->|Hc];
          [repeat (apply Forall_cons_2; [simpl; not_among|]); apply Forall_nil_2|]).
  by apply not_elem_of_nil in Hc.
Qed.



(** ** What shows *)

(** X10: the "Sidebar" button is outside the left column and an output of
    no listener, so it shows and is enabled after any events with any
    handlers.  Everything created inside the left column is hidden while the
    number of clicks on "Sidebar" is even, as at the start, whatever the
    handlers did to the components; the mode radio, the upload button and
    the "Delete ALL files" button show exactly when that number is odd. *)
Theorem sidebar_hides_its_controls (h : Binding -> Handler) (bs : list Binding) :
  Forall (fun b => b ∈ bindings) bs ->
  displayed (widgets (fire_all h initial bs)) btn_toggle_sidebar = true /\
  is_enabled (widgets (fire_all h initial bs) btn_toggle_sidebar) = true /\
  (forall c, in_sidebar c = true -> Nat.odd (toggle_clicks bs) = false ->
     displayed (widgets (fire_all h initial bs)) c = false) /\
  (forall c, c ∈ [mode; upload_button; delete_files_button] ->
     displayed (widgets (fire_all h initial bs)) c = Nat.odd (toggle_clicks bs)).
Proof.
  intros Hbs.
  destruct (sidebar_after_events h bs initial Hbs) as [Hf Hv].
  assert (visible (widgets (fire_all h initial bs) sidebar_left)
          = Nat.odd (toggle_clicks bs)) as Hcol.
  { rewrite Hv by done. rewrite Hf. reflexivity. }
  assert (forall c, c ∈ [mode; upload_button; delete_files_button; btn_toggle_sidebar] ->
            widgets (fire_all h initial bs) c = created c) as Hsame.
  { intros c Hc. rewrite fire_all_other; [done|done|]. by apply never_an_output. }
  split; [|split; [|split]].
  - unfold displayed. rewrite Hsame by among. reflexivity.
  - rewrite Hsame by among. reflexivity.
  - intros c Hc Heven. unfold displayed. rewrite Hc, Hcol, Heven.
    apply andb_false_r.
  - intros c Hc. unfold displayed. rewrite Hcol.
    repeat (apply elem_of_cons in Hc as [->|Hc];
            [rewrite Hsame by among; reflexivity|]).
    by apply not_elem_of_nil in Hc.
Qed.

Lemma sidebar_hides_its_controls_witness :
  displayed (widgets (fire_all no_handler initial
                        [btn_toggle_sidebar_click; ingested_dataset_select]))
    upload_button = true /\
  displayed (widgets (fire_all no_handler initial
                        [btn_toggle_sidebar_click; btn_toggle_sidebar_click]))
    delete_file_button = false.
Proof.
  split.
  - destruct (sidebar_hides_its_controls no_handler
                [btn_toggle_sidebar_click; ingested_dataset_select]) as (_ & _ & _ & H).
    + repeat apply Forall_cons_2; try apply Forall_nil_2; unfold bindings; among.
    + apply (H upload_button). among.
  - destruct (sidebar_hides_its_controls no_handler
                [btn_toggle_sidebar_click; btn_toggle_sidebar_click]) as (_ & _ & H & _).
    + repeat apply Forall_cons_2; try apply Forall_nil_2; unfold bindings; among.
    + by apply (H delete_file_button).
Defined.

(** ** The modes *)

(** X11: the four modes have four different values, and the radio lists
    the value of every mode exactly once, in the order of [MODES]; so a
    chosen value names one mode and every mode can be chosen. *)
Theorem mode_choices_name_modes :
  (forall m1 m2, Modes_value m1 = Modes_value m2 -> m1 = m2) /\
  NoDup mode_choices /\
  (forall m, Modes_value m ∈ mode_choices) /\
  (forall v, v ∈ mode_choices -> exists m, m ∈ MODES /\ Modes_value m = v) /\
  length mode_choices = 4.
Proof.
  split; [by intros [] []|].
  split; [unfold mode_choices; simpl; repeat (apply NoDup_cons_2; [not_among|]);
          apply NoDup_nil_2|].
  split; [intros []; unfold mode_choices; simpl; among|].
  split; [|reflexivity].
  intros v Hv. unfold mode_choices in Hv. apply list_elem_of_fmap in Hv as (m & -> & Hm).
  by exists m.
Qed.

End UiFacts.
